(** * gosqs: configuration, custom attributes and AWS client bootstrap

    A shallow embedding of [config.go] of the gosqs package: the [Config]
    struct, the custom-attribute builder [NewCustomAttribute], the retry
    policy [retryer] and the default bootstrap [newAwsConfigs].

    Conventions of the embedding:
    - a Go [int] is a [Z] (the program performs no arithmetic on it, so no
      wrap-around is ever taken); a Go [string] is a [string];
    - a slice is the list of the elements it shows, [append] on it adds one
      at the end;
    - a Go [(T, error)] result is a pair [T * option error], [None] being
      the nil error;
    - an [interface{}] argument is a [value]: a dynamic type together with
      its payload;
    - a function value stored in a struct is a reference into a table of
      functions (a struct cannot contain a function over itself);
    - calls into the AWS SDK are effects: they are answered by a [World] and
      recorded, in order, in a trace of [Event]s. *)

From Stdlib Require Import ZArith String Ascii List Bool Lia.
From Stdlib Require Import Decimal DecimalString DecimalPos DecimalZ.
From Stdlib Require Import Floats.SpecFloat.
Import ListNotations.

Open Scope Z_scope.
Open Scope string_scope.

(** ** Errors *)

Inductive ErrKind : Type :=
| InvalidCredentials
| Marshal.

(** Modelled from the spec: the package's error type and its two values
    [ErrInvalidCreds] and [ErrMarshal] are declared outside [config.go].
    The spec names two error kinds, [InvalidCredentials], which "wraps/chains
    the underlying cause", and [Marshal]; every other failure is an error
    value of a collaborator, passed through. *)
#[warnings="-register-all"]
Inductive error : Type :=
| External (msg : string)
| SQSError (Err : ErrKind) (contextErr : option error).

(** Modelled from the spec: the package's [ErrInvalidCreds], the
    [InvalidCredentials] error before a cause is attached. *)
Definition ErrInvalidCreds : error := SQSError InvalidCredentials None.

(** Modelled from the spec: the package's [ErrMarshal], the [Marshal] error. *)
Definition ErrMarshal : error := SQSError Marshal None.

(** Modelled from the spec: [e.Context(err)] is a new instance of [e] with
    [err] attached as its cause. *)
Definition Context (e err : error) : error :=
  match e with
  | SQSError k _ => SQSError k (Some err)
  | External m => External m
  end.

Definition kind_of (e : error) : option ErrKind :=
  match e with
  | SQSError k _ => Some k
  | External _ => None
  end.

Definition cause (e : error) : option error :=
  match e with
  | SQSError _ c => c
  | External _ => None
  end.

(** ** Dynamic values: what an [interface{}] argument can hold *)

Inductive value : Type :=
| VNil
| VBool (b : bool)
| VInt (i : Z)
| VInt8 (i : Z)
| VInt16 (i : Z)
| VInt32 (i : Z)
| VInt64 (i : Z)
| VUint (i : Z)
| VUint8 (i : Z)
| VUint16 (i : Z)
| VUint32 (i : Z)
| VUint64 (i : Z)
| VFloat32 (f : spec_float)
| VFloat64 (f : spec_float)
| VString (s : string)
| VOther (typ : string).  (* any other dynamic type: named, composite, ... *)

(** [value.(int)]: the comma-ok type assertion, zero value on failure. *)
Definition assert_int (v : value) : Z * bool :=
  match v with
  | VInt i => (i, true)
  | _ => (0, false)
  end.

(** [value.(string)] *)
Definition assert_string (v : value) : string * bool :=
  match v with
  | VString s => (s, true)
  | _ => (EmptyString, false)
  end.

(** The integer a floating-point number denotes, when it is a whole number. *)
Definition float_integer (f : spec_float) : option Z :=
  match f with
  | S754_zero _ => Some 0
  | S754_finite s m e =>
      let sign (z : Z) := if s then - z else z in
      if (0 <=? e)%Z then Some (sign (Zpos m * 2 ^ e))
      else if (Zpos m mod 2 ^ (- e) =? 0)%Z then Some (sign (Zpos m / 2 ^ (- e)))
      else None
  | S754_infinity _ | S754_nan => None
  end.

(** The mathematical integer a value stands for, whatever its dynamic type:
    the reading of "representable as an integer". *)
Definition integer_value (v : value) : option Z :=
  match v with
  | VInt i | VInt8 i | VInt16 i | VInt32 i | VInt64 i
  | VUint i | VUint8 i | VUint16 i | VUint32 i | VUint64 i => Some i
  | VFloat32 f | VFloat64 f => float_integer f
  | VNil | VBool _ | VString _ | VOther _ => None
  end.

Definition is_int (v : value) : bool :=
  match v with VInt _ => true | _ => false end.

Definition is_string (v : value) : bool :=
  match v with VString _ => true | _ => false end.

(** ** The standard library's [strconv] *)

Module strconv.

(** [strconv.Itoa]: the decimal text of an integer, ["-"] first when it is
    negative. *)
Definition Itoa (i : Z) : string := NilZero.string_of_int (Z.to_int i).

(** Reading decimal text back, for stating what [Itoa] produces. *)
Definition decimal_value (s : string) : option Z :=
  option_map Z.of_int (NilZero.int_of_string s).

End strconv.

(** ** Data types and custom attributes *)

Definition dataType : Type := string.

Definition dataType_String (dt : dataType) : string := dt.

Definition DataTypeNumber : dataType := "Number".
Definition DataTypeString : dataType := "String".

Record customAttribute : Type := mkCustomAttribute {
  Title : string;
  DataType : string;
  Value : string
}.

(** ** Config *)

(** [SessionProviderFunc]: a reference to a function [Config -> (aws.Config,
    error)]; what it does when called is given by the table [call] below. *)
Definition SessionProviderFunc : Type := nat.

(** An implementation of the [Logger] interface, by reference. *)
Definition LoggerImpl : Type := nat.

Record Config : Type := mkConfig {
  AwsConfigProvider : option SessionProviderFunc;
  Key : string;
  Secret : string;
  Region : string;
  Hostname : string;
  AWSAccountID : string;
  Env : string;
  TopicPrefix : string;
  TopicARN : string;
  QueueURL : string;
  VisibilityTimeout : Z;
  RetryCount : Z;
  WorkerPool : Z;
  ExtensionLimit : option Z;
  Attributes : list customAttribute;
  Logger : option LoggerImpl
}.

(** The assignment [c.Attributes = l]. *)
Definition set_Attributes (c : Config) (l : list customAttribute) : Config :=
  {| AwsConfigProvider := AwsConfigProvider c;
     Key := Key c;
     Secret := Secret c;
     Region := Region c;
     Hostname := Hostname c;
     AWSAccountID := AWSAccountID c;
     Env := Env c;
     TopicPrefix := TopicPrefix c;
     TopicARN := TopicARN c;
     QueueURL := QueueURL c;
     VisibilityTimeout := VisibilityTimeout c;
     RetryCount := RetryCount c;
     WorkerPool := WorkerPool c;
     ExtensionLimit := ExtensionLimit c;
     Attributes := l;
     Logger := Logger c |}.

(** [NewCustomAttribute]: the receiver [c *Config] is threaded through, the
    result is the configuration after the call and the returned error. *)
Definition NewCustomAttribute (c : Config) (dt : dataType) (title : string)
    (v : value) : Config * option error :=
  if String.eqb dt DataTypeNumber then
    let (val, ok) := assert_int v in
    if negb ok then (c, Some ErrMarshal)
    else
      (set_Attributes c
         (Attributes c ++ [mkCustomAttribute title (dataType_String dt) (strconv.Itoa val)]),
       None)
  else
    let (val, ok) := assert_string v in
    if negb ok then (c, Some ErrMarshal)
    else
      (set_Attributes c
         (Attributes c ++ [mkCustomAttribute title (dataType_String dt) val]),
       None).

(** ** The retry policy *)

Record retryer : Type := mkRetryer { retryCount : Z }.

Definition MaxRetries (r : retryer) : Z :=
  if (0 <? retryCount r)%Z then retryCount r else 10.

(** ** The AWS SDK, as far as the program touches it

    Only what [config.go] builds, passes, reads or writes is kept. *)

Module aws.

Record Credentials : Type := mkCredentials {
  AccessKeyID : string;
  SecretAccessKey : string;
  SessionToken : string
}.

(** [credentials.NewStaticCredentialsProvider] and
    [aws.NewCredentialsCache], as the program composes them. *)
Inductive CredentialsProvider : Type :=
| StaticCredentialsProvider (key secret session : string)
| CredentialsCache (provider : CredentialsProvider).

(** [retry.NewStandard] and [retry.AddWithMaxAttempts]. *)
Inductive Retryer : Type :=
| Standard
| WithMaxAttempts (r : Retryer) (max : Z).

Inductive ClientLogMode : Type :=
| LogNone
| LogResponseWithBody.

Record Config : Type := mkConfig {
  Region : string;
  Credentials_ : option CredentialsProvider;
  Retryer_ : option Retryer;
  ClientLogMode_ : ClientLogMode;
  BaseEndpoint : option string
}.

(** [aws.Config{}] *)
Definition zero : Config :=
  {| Region := EmptyString;
     Credentials_ := None;
     Retryer_ := None;
     ClientLogMode_ := LogNone;
     BaseEndpoint := None |}.

(** The assignment [cfg.BaseEndpoint = p]. *)
Definition set_BaseEndpoint (cfg : Config) (p : option string) : Config :=
  {| Region := Region cfg;
     Credentials_ := Credentials_ cfg;
     Retryer_ := Retryer_ cfg;
     ClientLogMode_ := ClientLogMode_ cfg;
     BaseEndpoint := p |}.

End aws.

Module credentials.
Definition NewStaticCredentialsProvider (key secret session : string) :
    aws.CredentialsProvider :=
  aws.StaticCredentialsProvider key secret session.
End credentials.

Module retry.
Definition NewStandard : aws.Retryer := aws.Standard.
Definition AddWithMaxAttempts (r : aws.Retryer) (max : Z) : aws.Retryer :=
  aws.WithMaxAttempts r max.
End retry.

Module config.

(** The options the program sets, each a function on [LoadOptions]. *)
Record LoadOptions : Type := mkLoadOptions {
  Region : string;
  Credentials : option aws.CredentialsProvider;
  Retryer : option aws.Retryer;
  ClientLogMode : option aws.ClientLogMode
}.

Definition no_options : LoadOptions :=
  {| Region := EmptyString; Credentials := None; Retryer := None; ClientLogMode := None |}.

Definition LoadOptionsFunc : Type := LoadOptions -> LoadOptions.

Definition WithRegion (v : string) : LoadOptionsFunc := fun o =>
  {| Region := v; Credentials := Credentials o;
     Retryer := Retryer o; ClientLogMode := ClientLogMode o |}.

Definition WithCredentialsProvider (v : aws.CredentialsProvider) : LoadOptionsFunc :=
  fun o =>
  {| Region := Region o; Credentials := Some v;
     Retryer := Retryer o; ClientLogMode := ClientLogMode o |}.

Definition WithRetryer (v : aws.Retryer) : LoadOptionsFunc := fun o =>
  {| Region := Region o; Credentials := Credentials o;
     Retryer := Some v; ClientLogMode := ClientLogMode o |}.

Definition WithClientLogMode (v : aws.ClientLogMode) : LoadOptionsFunc := fun o =>
  {| Region := Region o; Credentials := Credentials o;
     Retryer := Retryer o; ClientLogMode := Some v |}.

Definition apply_options (optFns : list LoadOptionsFunc) : LoadOptions :=
  fold_left (fun o f => f o) optFns no_options.

End config.

(** ** Effects: the outside world and the trace of calls into it *)

(** What the collaborators answer: the credential provider to a retrieval,
    the configuration loader to a set of options. *)
Record World : Type := mkWorld {
  retrieve : aws.CredentialsProvider -> aws.Credentials * option error;
  load : config.LoadOptions -> aws.Config * option error
}.

Inductive Event : Type :=
| EvRetrieve (p : aws.CredentialsProvider)
| EvLoadDefaultConfig (o : config.LoadOptions).

(** A computation reads the world and extends the trace. *)
Definition M (A : Type) : Type := World -> list Event -> A * list Event.

Definition ret {A : Type} (a : A) : M A := fun _ tr => (a, tr).

Definition bind {A B : Type} (m : M A) (k : A -> M B) : M B :=
  fun w tr => let (a, tr') := m w tr in k a w tr'.

Definition emit (e : Event) : M unit := fun _ tr => (tt, (tr ++ [e])%list).

Definition ask {A : Type} (q : World -> A) : M A := fun w tr => (q w, tr).

Declare Scope go_scope.
Delimit Scope go_scope with go.
Notation "x <- m ;; k" := (bind m (fun x => k))
  (at level 61, m at next level, right associativity) : go_scope.
Notation "m ;;; k" := (bind m (fun _ => k))
  (at level 61, right associativity) : go_scope.

(** [creds.Retrieve(ctx)] *)
Definition Retrieve (p : aws.CredentialsProvider) : M (aws.Credentials * option error) :=
  (emit (EvRetrieve p) ;;; ask (fun w => retrieve w p))%go.

(** [config.LoadDefaultConfig(ctx, optFns...)] *)
Definition LoadDefaultConfig (optFns : list config.LoadOptionsFunc) :
    M (aws.Config * option error) :=
  let o := config.apply_options optFns in
  (emit (EvLoadDefaultConfig o) ;;; ask (fun w => load w o))%go.

(** The trace a computation produces, started on an empty one. *)
Definition events {A : Type} (m : M A) (w : World) : list Event := snd (m w []).

(** What a computation returns. *)
Definition result {A : Type} (m : M A) (w : World) : A := fst (m w []).

(** ** The default bootstrap *)

Definition newAwsConfigs_creds (c : Config) : aws.CredentialsProvider :=
  aws.CredentialsCache (credentials.NewStaticCredentialsProvider (Key c) (Secret c) EmptyString).

(** The options [newAwsConfigs] hands to the loader. *)
Definition newAwsConfigs_options (c : Config) (creds : aws.CredentialsProvider)
    (r : retryer) : list config.LoadOptionsFunc :=
  [ config.WithRegion (Region c);
    config.WithCredentialsProvider creds;
    config.WithRetryer (retry.AddWithMaxAttempts retry.NewStandard (MaxRetries r));
    config.WithClientLogMode aws.LogResponseWithBody ].

Definition newAwsConfigs (c : Config) : M (aws.Config * option error) :=
  (let creds := newAwsConfigs_creds c in
   r1 <- Retrieve creds ;;
   match snd r1 with
   | Some err => ret (aws.zero, Some (Context ErrInvalidCreds err))
   | None =>
       let r := {| retryCount := RetryCount c |} in
       r2 <- LoadDefaultConfig (newAwsConfigs_options c creds r) ;;
       let (cfg, err) := r2 in
       match err with
       | Some err => ret (aws.zero, Some err)
       | None =>
           let cfg := if negb (String.eqb (Hostname c) EmptyString)
                      then aws.set_BaseEndpoint cfg (Some (Hostname c))
                      else cfg in
           ret (cfg, None)
       end
   end)%go.

(** ** Resolving a configuration *)

Section Resolve.

(** The table of override functions: what calling the function behind a
    [SessionProviderFunc] does. *)
Variable call : SessionProviderFunc -> Config -> M (aws.Config * option error).

(** Modelled from the spec: the choice between the override and the
    default bootstrap is made by the callers of [newAwsConfigs], outside
    [config.go].  "If [cfg.AwsConfigProvider] is set, invoke it with [cfg]
    and return its result verbatim [...]. Otherwise run the default path." *)
Definition Resolve (c : Config) : M (aws.Config * option error) :=
  match AwsConfigProvider c with
  | Some f => call f c
  | None => newAwsConfigs c
  end.

End Resolve.

(** ** A sequence of builder calls *)

Record call_args : Type := mkCall {
  arg_dataType : dataType;
  arg_title : string;
  arg_value : value
}.

(** The calls are made one after the other on the same [*Config]; the
    errors they return are collected in order. *)
Fixpoint run_calls (calls : list call_args) (c : Config) : Config * list (option error) :=
  match calls with
  | [] => (c, [])
  | k :: rest =>
      let (c1, e) := NewCustomAttribute c (arg_dataType k) (arg_title k) (arg_value k) in
      let (c2, es) := run_calls rest c1 in
      (c2, e :: es)
  end.

(** The attribute a call is expected to add, if any: a numeric call adds the
    decimal text of an [int], any other call adds a [string] as it is. *)
Definition attribute_of (k : call_args) : option customAttribute :=
  if String.eqb (arg_dataType k) DataTypeNumber then
    match arg_value k with
    | VInt i => Some (mkCustomAttribute (arg_title k) (arg_dataType k) (strconv.Itoa i))
    | _ => None
    end
  else
    match arg_value k with
    | VString s => Some (mkCustomAttribute (arg_title k) (arg_dataType k) s)
    | _ => None
    end.

Fixpoint attributes_of (calls : list call_args) : list customAttribute :=
  match calls with
  | [] => []
  | k :: rest =>
      match attribute_of k with
      | Some a => a :: attributes_of rest
      | None => attributes_of rest
      end
  end.

(** ** Sample collaborators and configurations, for running the model *)

Module Sample.

(** A credential provider that refuses an empty key or secret, and a
    loader that refuses an empty region and otherwise builds the
    configuration the options ask for. *)
Definition world : World :=
  {| retrieve := fun p =>
       match p with
       | aws.CredentialsCache (aws.StaticCredentialsProvider k s t) =>
           if (String.eqb k EmptyString || String.eqb s EmptyString)%bool
           then (aws.mkCredentials EmptyString EmptyString EmptyString,
                 Some (External "static credentials are empty"))
           else (aws.mkCredentials k s t, None)
       | _ => (aws.mkCredentials EmptyString EmptyString EmptyString, Some (External "no provider"))
       end;
     load := fun o =>
       if String.eqb (config.Region o) EmptyString
       then (aws.zero, Some (External "missing region"))
       else
         ({| aws.Region := config.Region o;
             aws.Credentials_ := config.Credentials o;
             aws.Retryer_ := config.Retryer o;
             aws.ClientLogMode_ :=
               match config.ClientLogMode o with Some m => m | None => aws.LogNone end;
             aws.BaseEndpoint := None |}, None) |}.

Definition cfg : Config :=
  {| AwsConfigProvider := None;
     Key := "k"; Secret := "s"; Region := "us-west-1"; Hostname := EmptyString;
     AWSAccountID := EmptyString; Env := EmptyString; TopicPrefix := EmptyString;
     TopicARN := EmptyString; QueueURL := EmptyString;
     VisibilityTimeout := 0; RetryCount := 0; WorkerPool := 0;
     ExtensionLimit := None; Attributes := []; Logger := None |}.

Definition with_hostname (h : string) (c : Config) : Config :=
  {| AwsConfigProvider := AwsConfigProvider c;
     Key := Key c; Secret := Secret c; Region := Region c; Hostname := h;
     AWSAccountID := AWSAccountID c; Env := Env c; TopicPrefix := TopicPrefix c;
     TopicARN := TopicARN c; QueueURL := QueueURL c;
     VisibilityTimeout := VisibilityTimeout c; RetryCount := RetryCount c;
     WorkerPool := WorkerPool c; ExtensionLimit := ExtensionLimit c;
     Attributes := Attributes c; Logger := Logger c |}.

Definition with_keys (k s r : string) (c : Config) : Config :=
  {| AwsConfigProvider := AwsConfigProvider c;
     Key := k; Secret := s; Region := r; Hostname := Hostname c;
     AWSAccountID := AWSAccountID c; Env := Env c; TopicPrefix := TopicPrefix c;
     TopicARN := TopicARN c; QueueURL := QueueURL c;
     VisibilityTimeout := VisibilityTimeout c; RetryCount := RetryCount c;
     WorkerPool := WorkerPool c; ExtensionLimit := ExtensionLimit c;
     Attributes := Attributes c; Logger := Logger c |}.

Definition with_provider (f : SessionProviderFunc) (c : Config) : Config :=
  {| AwsConfigProvider := Some f;
     Key := Key c; Secret := Secret c; Region := Region c; Hostname := Hostname c;
     AWSAccountID := AWSAccountID c; Env := Env c; TopicPrefix := TopicPrefix c;
     TopicARN := TopicARN c; QueueURL := QueueURL c;
     VisibilityTimeout := VisibilityTimeout c; RetryCount := RetryCount c;
     WorkerPool := WorkerPool c; ExtensionLimit := ExtensionLimit c;
     Attributes := Attributes c; Logger := Logger c |}.

(** An override that answers with a sentinel configuration and error. *)
Definition sentinel : aws.Config * option error :=
  ({| aws.Region := "sentinel"; aws.Credentials_ := None; aws.Retryer_ := None;
      aws.ClientLogMode_ := aws.LogNone; aws.BaseEndpoint := Some "http://localhost:4150" |},
   Some (External "sentinel")).

Definition call (f : SessionProviderFunc) (c : Config) : M (aws.Config * option error) :=
  ret sentinel.

(** 5.0 as a binary64: 5 * 2^50 * 2^(-50). *)
Definition five : spec_float := S754_finite false (5 * 2 ^ 50) (-50).

(** A loader that also reads its environment: a region is taken from it
    when the options give none, and an endpoint is always taken from it. The
    environment here holds the region ["eu-central-1"] and the endpoint
    ["http://localhost:4566"]. Credentials are as in [world]. *)
Definition world_env : World :=
  {| retrieve := retrieve world;
     load := fun o =>
       ({| aws.Region :=
             if String.eqb (config.Region o) EmptyString
             then "eu-central-1" else config.Region o;
           aws.Credentials_ := config.Credentials o;
           aws.Retryer_ := config.Retryer o;
           aws.ClientLogMode_ :=
             match config.ClientLogMode o with Some m => m | None => aws.LogNone end;
           aws.BaseEndpoint := Some "http://localhost:4566" |}, None) |}.

End Sample.

(** ** Vocabulary of the statements *)

(** The error a call is expected to return. *)
Definition outcome_of (k : call_args) : option error :=
  match attribute_of k with
  | Some _ => None
  | None => Some ErrMarshal
  end.

(** The numeric case read literally: every value that stands for an integer,
    whatever its dynamic type, is accepted and stored as decimal text. *)
Definition accepts_every_integer : Prop :=
  forall (c : Config) (title : string) (v : value) (z : Z),
    integer_value v = Some z ->
    NewCustomAttribute c DataTypeNumber title v
    = (set_Attributes c
         (Attributes c ++ [mkCustomAttribute title "Number" (strconv.Itoa z)]),
       None).

(** A returned error that is nil. *)
Definition succeeded (e : option error) : bool :=
  match e with
  | None => true
  | Some _ => false
  end.

(** The options the default bootstrap loads the configuration with. *)
Definition bootstrap_options (c : Config) : config.LoadOptions :=
  config.apply_options
    (newAwsConfigs_options c (newAwsConfigs_creds c) {| retryCount := RetryCount c |}).

(** The empty-hostname case read literally: whenever the default bootstrap
    succeeds on a configuration with no hostname, the base endpoint of the
    result is unset. *)
Definition empty_hostname_leaves_endpoint_unset : Prop :=
  forall (w : World) (c : Config) (cfg : aws.Config),
    Hostname c = EmptyString ->
    result (newAwsConfigs c) w = (cfg, None) ->
    aws.BaseEndpoint cfg = None.

(** The region case read literally: whenever the retrieval and the load
    give no error, the default bootstrap gives none and the region of its
    result is the region of the input. *)
Definition result_region_is_input_region : Prop :=
  forall (w : World) (c : Config),
    snd (retrieve w (newAwsConfigs_creds c)) = None ->
    snd (load w (bootstrap_options c)) = None ->
    exists cfg : aws.Config,
      result (newAwsConfigs c) w = (cfg, None) /\ aws.Region cfg = Region c.

(** ** The override of [examples/config_provider.go] *)

Module example.

Definition provider_creds : aws.CredentialsProvider :=
  aws.CredentialsCache
    (credentials.NewStaticCredentialsProvider "mykey" "mysecret" EmptyString).

Definition provider_options (creds : aws.CredentialsProvider) :
    list config.LoadOptionsFunc :=
  [ config.WithRegion "us-west-1";
    config.WithCredentialsProvider creds ].

(** The function [provider] of [main_with_config_provider]: key, secret,
    region and endpoint are written in it, its argument is not read. *)
Definition provider (c : Config) : M (aws.Config * option error) :=
  (let creds := provider_creds in
   r1 <- Retrieve creds ;;
   match snd r1 with
   | Some err => ret (aws.zero, Some (Context ErrInvalidCreds err))
   | None =>
       r2 <- LoadDefaultConfig (provider_options creds) ;;
       let (cfg, err) := r2 in
       match err with
       | Some err => ret (aws.zero, Some err)
       | None =>
           let hostname := "http://localhost:4150" in
           let cfg := aws.set_BaseEndpoint cfg (Some hostname) in
           ret (cfg, None)
       end
   end)%go.

(** The options [provider] loads the configuration with. *)
Definition options : config.LoadOptions :=
  config.apply_options (provider_options provider_creds).

End example.

(** ** Vocabulary of the further properties *)

(** Text that is the decimal writing of an integer, as [Itoa] writes it. *)
Definition canonical_decimal (s : string) : bool :=
  match strconv.decimal_value s with
  | Some i => String.eqb s (strconv.Itoa i)
  | None => false
  end.

(** An attribute whose encoded value matches its declared type: under the
    [Number] tag the value is the decimal text of an integer. *)
Definition well_encoded (a : customAttribute) : bool :=
  if String.eqb (DataType a) DataTypeNumber then canonical_decimal (Value a) else true.

(** Whether the builder takes a value under a tag. *)
Definition accepted (dt : dataType) (v : value) : bool :=
  if String.eqb dt DataTypeNumber then is_int v else is_string v.

(** The calls of a sequence that succeed. *)
Definition successful (calls : list call_args) : list call_args :=
  filter (fun k => succeeded (outcome_of k)) calls.

(** Two configurations the default bootstrap cannot tell apart: the same
    key, secret, region and hostname, and retry counts that resolve to the
    same number of attempts. *)
Definition same_bootstrap_inputs (c c' : Config) : Prop :=
  Key c = Key c' /\ Secret c = Secret c' /\ Region c = Region c'
  /\ Hostname c = Hostname c'
  /\ MaxRetries {| retryCount := RetryCount c |}
     = MaxRetries {| retryCount := RetryCount c' |}.

(** ** Running the model on the scenarios of the specification *)

Example numeric_5 :
  NewCustomAttribute Sample.cfg DataTypeNumber "n" (VInt 5)
  = (set_Attributes Sample.cfg [mkCustomAttribute "n" "Number" "5"], None).
Proof. reflexivity. Qed.

Example numeric_negative :
  strconv.Itoa (-42) = "-42" /\ strconv.Itoa 0 = "0" /\ strconv.Itoa 1230 = "1230".
Proof. repeat split. Qed.

Example string_abc :
  NewCustomAttribute Sample.cfg DataTypeString "s" (VString "abc")
  = (set_Attributes Sample.cfg [mkCustomAttribute "s" "String" "abc"], None).
Proof. reflexivity. Qed.

Example numeric_on_string :
  NewCustomAttribute Sample.cfg DataTypeNumber "n" (VString "5") = (Sample.cfg, Some ErrMarshal).
Proof. reflexivity. Qed.

Example five_is_whole : integer_value (VFloat64 Sample.five) = Some 5.
Proof. reflexivity. Qed.

Example scenario_us_west_1 :
  result (newAwsConfigs Sample.cfg) Sample.world
  = ({| aws.Region := "us-west-1";
        aws.Credentials_ :=
          Some (aws.CredentialsCache (aws.StaticCredentialsProvider "k" "s" EmptyString));
        aws.Retryer_ := Some (aws.WithMaxAttempts aws.Standard 10);
        aws.ClientLogMode_ := aws.LogResponseWithBody;
        aws.BaseEndpoint := None |}, None).
Proof. reflexivity. Qed.

Example scenario_empty_key :
  newAwsConfigs (Sample.with_keys EmptyString "s" "us-west-1" Sample.cfg) Sample.world []
  = ((aws.zero,
      Some (SQSError InvalidCredentials (Some (External "static credentials are empty")))),
     [EvRetrieve
        (aws.CredentialsCache (aws.StaticCredentialsProvider EmptyString "s" EmptyString))]).
Proof. reflexivity. Qed.

(** ** Basic facts *)

Lemma set_Attributes_same (c : Config) : set_Attributes c (Attributes c) = c.
Proof. destruct c; reflexivity. Qed.

Lemma set_Attributes_twice (c : Config) (l l' : list customAttribute) :
  set_Attributes (set_Attributes c l) l' = set_Attributes c l'.
Proof. reflexivity. Qed.

Lemma to_int_nonnil (z : Z) : Z.to_int z <> Pos Nil /\ Z.to_int z <> Neg Nil.
Proof.
  destruct z as [|p|p]; simpl; split; try discriminate;
    intros H; injection H as H; exact (DecimalPos.Unsigned.to_uint_nonnil p H).
Qed.

(** [Itoa] writes the integer in base 10: reading the text back as a
    decimal numeral gives the integer again. *)
Lemma Itoa_decimal (z : Z) : strconv.decimal_value (strconv.Itoa z) = Some z.
Proof.
  unfold strconv.decimal_value, strconv.Itoa.
  destruct (to_int_nonnil z) as [Hp Hn].
  rewrite (NilZero.isi _ Hp Hn). simpl. now rewrite DecimalZ.of_to.
Qed.

Lemma Itoa_inj (a b : Z) : strconv.Itoa a = strconv.Itoa b -> a = b.
Proof.
  intros H. pose proof (Itoa_decimal a) as Ha. rewrite H, Itoa_decimal in Ha.
  congruence.
Qed.

Lemma bootstrap_options_eq (c : Config) :
  bootstrap_options c
  = {| config.Region := Region c;
       config.Credentials := Some (newAwsConfigs_creds c);
       config.Retryer :=
         Some (aws.WithMaxAttempts aws.Standard (MaxRetries {| retryCount := RetryCount c |}));
       config.ClientLogMode := Some aws.LogResponseWithBody |}.
Proof. reflexivity. Qed.

(** The three ways through [newAwsConfigs], from any trace. *)

Lemma newAwsConfigs_creds_fail (w : World) (c : Config) (err : error) (tr : list Event) :
  snd (retrieve w (newAwsConfigs_creds c)) = Some err ->
  newAwsConfigs c w tr
  = ((aws.zero, Some (Context ErrInvalidCreds err)),
     tr ++ [EvRetrieve (newAwsConfigs_creds c)])%list.
Proof.
  intros H. unfold newAwsConfigs, Retrieve, bind, emit, ask, ret. now rewrite H.
Qed.

Lemma newAwsConfigs_load_fail (w : World) (c : Config) (cfg : aws.Config) (err : error)
    (tr : list Event) :
  snd (retrieve w (newAwsConfigs_creds c)) = None ->
  load w (bootstrap_options c) = (cfg, Some err) ->
  newAwsConfigs c w tr
  = ((aws.zero, Some err),
     tr ++ [EvRetrieve (newAwsConfigs_creds c); EvLoadDefaultConfig (bootstrap_options c)])%list.
Proof.
  intros H1 H2.
  unfold newAwsConfigs, Retrieve, LoadDefaultConfig, bind, emit, ask, ret.
  rewrite H1. fold (bootstrap_options c). rewrite H2.
  now rewrite <- app_assoc.
Qed.

Lemma newAwsConfigs_ok (w : World) (c : Config) (cfg : aws.Config) (tr : list Event) :
  snd (retrieve w (newAwsConfigs_creds c)) = None ->
  load w (bootstrap_options c) = (cfg, None) ->
  newAwsConfigs c w tr
  = ((if negb (String.eqb (Hostname c) EmptyString)
      then aws.set_BaseEndpoint cfg (Some (Hostname c)) else cfg, None),
     tr ++ [EvRetrieve (newAwsConfigs_creds c); EvLoadDefaultConfig (bootstrap_options c)])%list.
Proof.
  intros H1 H2.
  unfold newAwsConfigs, Retrieve, LoadDefaultConfig, bind, emit, ask, ret.
  rewrite H1. fold (bootstrap_options c). rewrite H2.
  now rewrite <- app_assoc.
Qed.

(** ** The retry policy and the bootstrap *)

(** C1. The retry policy built from a configuration resolves its maximum
    attempt count to [RetryCount] when that is strictly positive and to 10
    otherwise, and this resolved count is the one the bootstrap bounds the
    standard retryer with. *)
Theorem MaxRetries_resolved (c : Config) :
  (0 < RetryCount c -> MaxRetries {| retryCount := RetryCount c |} = RetryCount c) /\
  (RetryCount c <= 0 -> MaxRetries {| retryCount := RetryCount c |} = 10) /\
  config.Retryer (bootstrap_options c)
  = Some (retry.AddWithMaxAttempts retry.NewStandard
            (MaxRetries {| retryCount := RetryCount c |})).
Proof.
  unfold MaxRetries; simpl retryCount. repeat split.
  - intros H. apply Z.ltb_lt in H. now rewrite H.
  - intros H. destruct (0 <? RetryCount c)%Z eqn:E; [apply Z.ltb_lt in E; lia | reflexivity].
Qed.

Lemma MaxRetries_resolved_witness :
  MaxRetries {| retryCount := RetryCount Sample.cfg |} = 10
  /\ MaxRetries {| retryCount := 3 |} = 3.
Proof.
  split.
  - apply (MaxRetries_resolved Sample.cfg). simpl. lia.
  - reflexivity.
Defined.

(** C2. When retrieving the credentials fails, the default bootstrap stops
    there: it returns the zero configuration and an [InvalidCredentials]
    error whose cause is the retrieval's error, and the only call made to a
    collaborator is the retrieval; the configuration loader is never
    called. *)
Theorem newAwsConfigs_invalid_credentials
    (w : World) (c : Config) (err : error) (tr : list Event) :
  snd (retrieve w (newAwsConfigs_creds c)) = Some err ->
  exists e : error,
    newAwsConfigs c w tr
    = ((aws.zero, Some e), (tr ++ [EvRetrieve (newAwsConfigs_creds c)])%list)
    /\ kind_of e = Some InvalidCredentials
    /\ cause e = Some err
    /\ forall o, ~ In (EvLoadDefaultConfig o) (events (newAwsConfigs c) w).
Proof.
  intros H. exists (Context ErrInvalidCreds err).
  split; [now apply newAwsConfigs_creds_fail|].
  repeat split.
  intros o. unfold events. rewrite (newAwsConfigs_creds_fail w c err [] H).
  simpl. intros [E | []]. discriminate E.
Qed.

Lemma newAwsConfigs_invalid_credentials_witness :
  exists e : error,
    newAwsConfigs (Sample.with_keys EmptyString "s" "us-west-1" Sample.cfg) Sample.world []
    = ((aws.zero, Some e),
       [EvRetrieve
          (aws.CredentialsCache (aws.StaticCredentialsProvider EmptyString "s" EmptyString))])
    /\ kind_of e = Some InvalidCredentials
    /\ cause e = Some (External "static credentials are empty")
    /\ forall o, ~ In (EvLoadDefaultConfig o)
                   (events (newAwsConfigs (Sample.with_keys EmptyString "s" "us-west-1" Sample.cfg))
                      Sample.world).
Proof.
  apply (newAwsConfigs_invalid_credentials Sample.world
           (Sample.with_keys EmptyString "s" "us-west-1" Sample.cfg)
           (External "static credentials are empty") []).
  reflexivity.
Defined.

(** C3. With an override set, resolving the configuration is calling that
    function on the same configuration: the same result, error included,
    and the same calls to the outside, whatever the world and the trace so
    far; in particular the default bootstrap contributes nothing. *)
Theorem Resolve_override
    (call : SessionProviderFunc -> Config -> M (aws.Config * option error))
    (c : Config) (f : SessionProviderFunc) :
  AwsConfigProvider c = Some f ->
  forall (w : World) (tr : list Event), Resolve call c w tr = call f c w tr.
Proof.
  intros H w tr. unfold Resolve. now rewrite H.
Qed.

Lemma Resolve_override_witness :
  Resolve Sample.call (Sample.with_provider 7%nat Sample.cfg) Sample.world []
  = (Sample.sentinel, []).
Proof.
  rewrite (Resolve_override Sample.call (Sample.with_provider 7%nat Sample.cfg) 7%nat);
    reflexivity.
Defined.

(** C4, amended. When the default bootstrap succeeds, the endpoint is
    settled after the configuration is loaded. A non-empty [Hostname]
    becomes the base endpoint of the result, which otherwise has the
    settings of the loaded configuration. With an empty [Hostname] the
    result is the loaded configuration as it is: its base endpoint is the
    one the loader gave it, set or unset. *)
Theorem newAwsConfigs_base_endpoint
    (w : World) (c : Config) (cfg : aws.Config) (tr : list Event) :
  snd (retrieve w (newAwsConfigs_creds c)) = None ->
  load w (bootstrap_options c) = (cfg, None) ->
  exists cfg' : aws.Config,
    newAwsConfigs c w tr
    = ((cfg', None),
       (tr ++ [EvRetrieve (newAwsConfigs_creds c);
               EvLoadDefaultConfig (bootstrap_options c)])%list)
    /\ (Hostname c <> EmptyString ->
        aws.BaseEndpoint cfg' = Some (Hostname c)
        /\ aws.Region cfg' = aws.Region cfg
        /\ aws.Credentials_ cfg' = aws.Credentials_ cfg
        /\ aws.Retryer_ cfg' = aws.Retryer_ cfg
        /\ aws.ClientLogMode_ cfg' = aws.ClientLogMode_ cfg)
    /\ (Hostname c = EmptyString ->
        cfg' = cfg /\ aws.BaseEndpoint cfg' = aws.BaseEndpoint cfg).
Proof.
  intros H1 H2. rewrite (newAwsConfigs_ok w c cfg tr H1 H2).
  destruct (String.eqb_spec (Hostname c) EmptyString) as [E | E]; simpl negb; cbv iota.
  - exists cfg. split; [reflexivity|]. split.
    + intros N. contradiction.
    + intros _. split; reflexivity.
  - exists (aws.set_BaseEndpoint cfg (Some (Hostname c))). split; [reflexivity|]. split.
    + intros _. repeat split.
    + intros N. contradiction.
Qed.

Lemma newAwsConfigs_base_endpoint_witness :
  (exists cfg' : aws.Config,
     result (newAwsConfigs (Sample.with_hostname "http://localhost:4150" Sample.cfg))
       Sample.world = (cfg', None)
     /\ aws.BaseEndpoint cfg' = Some "http://localhost:4150")
  /\ (exists cfg' : aws.Config,
        result (newAwsConfigs Sample.cfg) Sample.world = (cfg', None)
        /\ aws.BaseEndpoint cfg' = None).
Proof.
  split.
  - destruct (newAwsConfigs_base_endpoint Sample.world
                (Sample.with_hostname "http://localhost:4150" Sample.cfg)
                (fst (load Sample.world
                        (bootstrap_options
                           (Sample.with_hostname "http://localhost:4150" Sample.cfg))))
                [] eq_refl eq_refl) as [cfg' [Hr [Hset _]]].
    exists cfg'. split.
    + unfold result. now rewrite Hr.
    + apply Hset. discriminate.
  - destruct (newAwsConfigs_base_endpoint Sample.world Sample.cfg
                (fst (load Sample.world (bootstrap_options Sample.cfg)))
                [] eq_refl eq_refl) as [cfg' [Hr [_ Hkeep]]].
    exists cfg'. split.
    + unfold result. now rewrite Hr.
    + destruct (Hkeep eq_refl) as [_ Hb]. rewrite Hb. reflexivity.
Defined.

(** C4 as stated fails in its second half: with an empty [Hostname] and a
    loader that takes an endpoint from its environment, the bootstrap
    succeeds and the base endpoint of the result is set, not unset. *)
Lemma newAwsConfigs_empty_hostname_endpoint_set :
  Hostname Sample.cfg = EmptyString
  /\ (exists cfg : aws.Config,
        result (newAwsConfigs Sample.cfg) Sample.world_env = (cfg, None)
        /\ aws.BaseEndpoint cfg = Some "http://localhost:4566")
  /\ ~ empty_hostname_leaves_endpoint_unset.
Proof.
  split; [reflexivity|]. split.
  - eexists. split; reflexivity.
  - intros H.
    specialize (H Sample.world_env Sample.cfg _ eq_refl eq_refl). discriminate H.
Qed.

(** C8. When the credentials are retrieved but loading the configuration
    fails, the default bootstrap returns the loader's error itself, the
    same value with no wrapping, next to the zero configuration. *)
Theorem newAwsConfigs_loader_error
    (w : World) (c : Config) (cfg : aws.Config) (err : error) (tr : list Event) :
  snd (retrieve w (newAwsConfigs_creds c)) = None ->
  load w (bootstrap_options c) = (cfg, Some err) ->
  newAwsConfigs c w tr
  = ((aws.zero, Some err),
     (tr ++ [EvRetrieve (newAwsConfigs_creds c);
             EvLoadDefaultConfig (bootstrap_options c)])%list).
Proof. exact (newAwsConfigs_load_fail w c cfg err tr). Qed.

Lemma newAwsConfigs_loader_error_witness :
  result (newAwsConfigs (Sample.with_keys "k" "s" EmptyString Sample.cfg)) Sample.world
  = (aws.zero, Some (External "missing region")).
Proof.
  unfold result.
  rewrite (newAwsConfigs_loader_error Sample.world (Sample.with_keys "k" "s" EmptyString Sample.cfg)
             aws.zero (External "missing region") [] eq_refl eq_refl).
  reflexivity.
Defined.

(** C9, amended. When the retrieval and the load give no error, the
    default bootstrap gives none either; the region it asks the loader for
    is [Region] of the input, and the region of its result is the region of
    the configuration the loader answered with, untouched. So the result's
    region is the input's exactly when the loader's answer carries the
    region it was asked for. *)
Theorem newAwsConfigs_region
    (w : World) (c : Config) (cfg : aws.Config) (tr : list Event) :
  snd (retrieve w (newAwsConfigs_creds c)) = None ->
  load w (bootstrap_options c) = (cfg, None) ->
  exists cfg' : aws.Config,
    newAwsConfigs c w tr
    = ((cfg', None),
       (tr ++ [EvRetrieve (newAwsConfigs_creds c);
               EvLoadDefaultConfig (bootstrap_options c)])%list)
    /\ config.Region (bootstrap_options c) = Region c
    /\ aws.Region cfg' = aws.Region cfg
    /\ (aws.Region cfg' = Region c <-> aws.Region cfg = config.Region (bootstrap_options c)).
Proof.
  intros H1 H2. rewrite (newAwsConfigs_ok w c cfg tr H1 H2).
  eexists. split; [reflexivity|]. split; [reflexivity|].
  rewrite bootstrap_options_eq. simpl config.Region.
  destruct (negb (Hostname c =? EmptyString)%string); simpl; split; tauto.
Qed.

Lemma newAwsConfigs_region_witness :
  exists cfg' : aws.Config,
    fst (newAwsConfigs Sample.cfg Sample.world []) = (cfg', None)
    /\ aws.Region cfg' = "us-west-1".
Proof.
  destruct (newAwsConfigs_region Sample.world Sample.cfg
              (fst (load Sample.world (bootstrap_options Sample.cfg))) []
              eq_refl eq_refl) as [cfg' [Hr [_ [_ Hreg]]]].
  exists cfg'. split.
  - now rewrite Hr.
  - apply Hreg. reflexivity.
Defined.

(** C9 as stated fails: with an empty [Region] and a loader that then takes
    the region from its environment, the retrieval and the load give no
    error, the bootstrap succeeds, and the region of the result is the
    environment's, not the input's. *)
Lemma newAwsConfigs_region_from_environment :
  snd (retrieve Sample.world_env
         (newAwsConfigs_creds (Sample.with_keys "k" "s" EmptyString Sample.cfg))) = None
  /\ (exists cfg : aws.Config,
        result (newAwsConfigs (Sample.with_keys "k" "s" EmptyString Sample.cfg))
          Sample.world_env = (cfg, None)
        /\ aws.Region cfg = "eu-central-1"
        /\ aws.Region cfg <> Region (Sample.with_keys "k" "s" EmptyString Sample.cfg))
  /\ ~ result_region_is_input_region.
Proof.
  split; [reflexivity|]. split.
  - eexists. split; [reflexivity|]. split; [reflexivity | discriminate].
  - intros H.
    destruct (H Sample.world_env (Sample.with_keys "k" "s" EmptyString Sample.cfg)
                eq_refl eq_refl) as [cfg [Hr Hreg]].
    unfold result in Hr. simpl in Hr. injection Hr as <-. discriminate Hreg.
Qed.

(** ** The custom-attribute builder *)

(** A call does what [attribute_of] says: it appends that attribute, or it
    fails with [ErrMarshal] and changes nothing. *)
Lemma NewCustomAttribute_attribute_of (c : Config) (k : call_args) :
  NewCustomAttribute c (arg_dataType k) (arg_title k) (arg_value k)
  = match attribute_of k with
    | Some a => (set_Attributes c (Attributes c ++ [a]), None)
    | None => (c, Some ErrMarshal)
    end.
Proof.
  unfold NewCustomAttribute, attribute_of, dataType_String.
  destruct (arg_dataType k =? DataTypeNumber)%string;
    destruct (arg_value k); reflexivity.
Qed.

Lemma run_calls_attributes_of (calls : list call_args) :
  forall c : Config,
    run_calls calls c
    = (set_Attributes c (Attributes c ++ attributes_of calls), map outcome_of calls).
Proof.
  induction calls as [|k rest IH]; intros c; simpl.
  - now rewrite app_nil_r, set_Attributes_same.
  - rewrite NewCustomAttribute_attribute_of. unfold outcome_of at 1.
    destruct (attribute_of k) as [a|].
    + rewrite IH. simpl Attributes. rewrite set_Attributes_twice, <- app_assoc.
      reflexivity.
    + rewrite IH. reflexivity.
Qed.

Lemma attributes_of_length (calls : list call_args) :
  length (attributes_of calls) = length (filter succeeded (map outcome_of calls)).
Proof.
  induction calls as [|k rest IH]; simpl; [reflexivity|].
  unfold outcome_of at 1. destruct (attribute_of k); simpl; now rewrite IH.
Qed.

(** C5, amended. With the numeric tag, a value of dynamic type [int] is
    accepted: the call returns no error and afterwards the attribute
    sequence is the former one followed by exactly one attribute, carrying
    the title, the tag and the base-10 text of the integer (text that reads
    back as that integer); every value that is not an [int] is refused with
    the Marshal error and the configuration, its attribute sequence
    included, is left as it was. *)
Theorem NewCustomAttribute_number (c : Config) (title : string) (v : value) :
  (forall i : Z, v = VInt i ->
     snd (NewCustomAttribute c DataTypeNumber title v) = None
     /\ Attributes (fst (NewCustomAttribute c DataTypeNumber title v))
        = (Attributes c ++ [mkCustomAttribute title "Number" (strconv.Itoa i)])%list
     /\ length (Attributes (fst (NewCustomAttribute c DataTypeNumber title v)))
        = S (length (Attributes c))
     /\ NewCustomAttribute c DataTypeNumber title v
        = (set_Attributes c
             (Attributes c ++ [mkCustomAttribute title "Number" (strconv.Itoa i)]), None)
     /\ strconv.decimal_value (strconv.Itoa i) = Some i)
  /\ (is_int v = false ->
      NewCustomAttribute c DataTypeNumber title v = (c, Some ErrMarshal)
      /\ Attributes (fst (NewCustomAttribute c DataTypeNumber title v)) = Attributes c).
Proof.
  split.
  - intros i ->. simpl. repeat split.
    + rewrite length_app. simpl. apply Nat.add_1_r.
    + apply Itoa_decimal.
  - intros H. destruct v; try (split; reflexivity). discriminate H.
Qed.

Lemma NewCustomAttribute_number_witness :
  Attributes (fst (NewCustomAttribute Sample.cfg DataTypeNumber "n" (VInt 5)))
  = [mkCustomAttribute "n" "Number" "5"]
  /\ NewCustomAttribute Sample.cfg DataTypeNumber "n" (VBool true)
     = (Sample.cfg, Some ErrMarshal).
Proof.
  split.
  - exact (proj1 (proj2 (proj1 (NewCustomAttribute_number Sample.cfg "n" (VInt 5))
                           5 eq_refl))).
  - exact (proj1 (proj2 (NewCustomAttribute_number Sample.cfg "n" (VBool true)) eq_refl)).
Defined.

(** C5 as stated fails: the 64-bit integer 5 stands for the integer 5, yet
    the numeric call refuses it; so not every value representable as an
    integer is accepted. *)
Lemma NewCustomAttribute_number_int64_refused :
  integer_value (VInt64 5) = Some 5
  /\ NewCustomAttribute Sample.cfg DataTypeNumber "n" (VInt64 5)
     = (Sample.cfg, Some ErrMarshal)
  /\ ~ accepts_every_integer.
Proof.
  split; [reflexivity|]. split; [reflexivity|].
  intros H. specialize (H Sample.cfg "n" (VInt64 5) 5 eq_refl). discriminate H.
Qed.

(** C6. With any tag other than the numeric one, a string value is
    accepted: the call returns no error and afterwards the attribute
    sequence is the former one followed by exactly one attribute, carrying
    the title, the tag and the string as it is; every value that is not a
    string is refused with the Marshal error and the configuration, its
    attribute sequence included, is left as it was. *)
Theorem NewCustomAttribute_string (c : Config) (dt : dataType) (title : string) (v : value) :
  dt <> DataTypeNumber ->
  (forall s : string, v = VString s ->
     snd (NewCustomAttribute c dt title v) = None
     /\ Attributes (fst (NewCustomAttribute c dt title v))
        = (Attributes c ++ [mkCustomAttribute title dt s])%list
     /\ length (Attributes (fst (NewCustomAttribute c dt title v)))
        = S (length (Attributes c))
     /\ NewCustomAttribute c dt title v
        = (set_Attributes c (Attributes c ++ [mkCustomAttribute title dt s]), None))
  /\ (is_string v = false ->
      NewCustomAttribute c dt title v = (c, Some ErrMarshal)
      /\ Attributes (fst (NewCustomAttribute c dt title v)) = Attributes c).
Proof.
  intros Hdt. apply String.eqb_neq in Hdt. unfold NewCustomAttribute. rewrite Hdt.
  split.
  - intros s ->. simpl. repeat split.
    rewrite length_app. simpl. apply Nat.add_1_r.
  - intros H. destruct v; try (split; reflexivity). discriminate H.
Qed.

Lemma NewCustomAttribute_string_witness :
  Attributes (fst (NewCustomAttribute Sample.cfg DataTypeString "s" (VString "abc")))
  = [mkCustomAttribute "s" "String" "abc"]
  /\ NewCustomAttribute Sample.cfg "Binary" "s" (VInt 5) = (Sample.cfg, Some ErrMarshal).
Proof.
  split.
  - refine (proj1 (proj2 (proj1 (NewCustomAttribute_string Sample.cfg DataTypeString "s"
                                   (VString "abc") _) "abc" eq_refl))).
    discriminate.
  - refine (proj1 (proj2 (NewCustomAttribute_string Sample.cfg "Binary" "s" (VInt 5) _)
                     eq_refl)).
    discriminate.
Defined.

(** C7. The builder only ever appends. One call: on success the new
    configuration is the old one with exactly one attribute added at the
    end of the sequence, on failure it is the old one. A sequence of calls:
    the final configuration is the initial one with the attributes of the
    successful calls added at the end, in call order; the initial
    attributes are still there, first and in order; the sequence has grown
    by the number of successful calls; no other field has changed. *)
Theorem NewCustomAttribute_append_only (calls : list call_args) (c : Config) :
  (forall (dt : dataType) (title : string) (v : value),
     (snd (NewCustomAttribute c dt title v) = None ->
      exists a : customAttribute,
        fst (NewCustomAttribute c dt title v) = set_Attributes c (Attributes c ++ [a]))
     /\ (snd (NewCustomAttribute c dt title v) <> None ->
         fst (NewCustomAttribute c dt title v) = c))
  /\ fst (run_calls calls c) = set_Attributes c (Attributes c ++ attributes_of calls)
  /\ snd (run_calls calls c) = map outcome_of calls
  /\ firstn (length (Attributes c)) (Attributes (fst (run_calls calls c))) = Attributes c
  /\ length (Attributes (fst (run_calls calls c)))
     = (length (Attributes c) + length (filter succeeded (snd (run_calls calls c))))%nat.
Proof.
  split.
  - intros dt title v.
    pose proof (NewCustomAttribute_attribute_of c (mkCall dt title v)) as E.
    simpl in E. rewrite E. clear E.
    destruct (attribute_of (mkCall dt title v)) as [a|]; simpl; split.
    + intros _. now exists a.
    + intros H. now contradiction H.
    + discriminate.
    + reflexivity.
  - rewrite run_calls_attributes_of. simpl. repeat split.
    + rewrite firstn_app, Nat.sub_diag, firstn_all. simpl. apply app_nil_r.
    + rewrite length_app. f_equal. apply attributes_of_length.
Qed.

Lemma NewCustomAttribute_append_only_witness :
  fst (run_calls [mkCall DataTypeNumber "a" (VInt 5);
                  mkCall DataTypeNumber "b" (VString "x");
                  mkCall DataTypeString "c" (VString "abc")] Sample.cfg)
  = set_Attributes Sample.cfg
      [mkCustomAttribute "a" "Number" "5"; mkCustomAttribute "c" "String" "abc"].
Proof.
  exact (proj1 (proj2 (NewCustomAttribute_append_only
                         [mkCall DataTypeNumber "a" (VInt 5);
                          mkCall DataTypeNumber "b" (VString "x");
                          mkCall DataTypeString "c" (VString "abc")] Sample.cfg))).
Defined.

(** C10. With the numeric tag only the dynamic type [int] is accepted: any
    value of another type is refused with the Marshal error and the
    configuration is unchanged. This includes values that do stand for an
    integer: those of the other integer types, such as [int64] and [int32],
    and a [float64] whose value is a whole number. *)
Theorem NewCustomAttribute_number_exact_int (c : Config) (title : string) :
  (forall v : value, is_int v = false ->
     NewCustomAttribute c DataTypeNumber title v = (c, Some ErrMarshal))
  /\ (forall z : Z,
        integer_value (VInt64 z) = Some z
        /\ NewCustomAttribute c DataTypeNumber title (VInt64 z) = (c, Some ErrMarshal))
  /\ (forall z : Z,
        integer_value (VInt32 z) = Some z
        /\ NewCustomAttribute c DataTypeNumber title (VInt32 z) = (c, Some ErrMarshal))
  /\ (forall (f : spec_float) (z : Z), integer_value (VFloat64 f) = Some z ->
        NewCustomAttribute c DataTypeNumber title (VFloat64 f) = (c, Some ErrMarshal)).
Proof.
  repeat split.
  intros v H. destruct v; try reflexivity. discriminate H.
Qed.

Lemma NewCustomAttribute_number_exact_int_witness :
  integer_value (VFloat64 Sample.five) = Some 5
  /\ NewCustomAttribute Sample.cfg DataTypeNumber "n" (VFloat64 Sample.five)
     = (Sample.cfg, Some ErrMarshal).
Proof.
  split; [reflexivity|].
  apply (proj2 (proj2 (proj2 (NewCustomAttribute_number_exact_int Sample.cfg "n")))
           Sample.five 5).
  reflexivity.
Defined.

(** ** Further properties of the builder *)

Lemma canonical_decimal_Itoa (i : Z) : canonical_decimal (strconv.Itoa i) = true.
Proof.
  unfold canonical_decimal. rewrite Itoa_decimal. apply String.eqb_refl.
Qed.

Lemma attribute_of_well_encoded (k : call_args) (a : customAttribute) :
  attribute_of k = Some a -> well_encoded a = true.
Proof.
  unfold attribute_of, well_encoded.
  destruct (arg_dataType k =? DataTypeNumber)%string eqn:E;
    destruct (arg_value k); intros H; try discriminate H;
    injection H as <-; simpl; rewrite E; [apply canonical_decimal_Itoa | reflexivity].
Qed.

Lemma attribute_of_DataType (k : call_args) (a : customAttribute) :
  attribute_of k = Some a -> DataType a = arg_dataType k /\ Title a = arg_title k.
Proof.
  unfold attribute_of.
  destruct (arg_dataType k =? DataTypeNumber)%string;
    destruct (arg_value k); intros H; try discriminate H;
    injection H as <-; split; reflexivity.
Qed.

(** The attribute a call appends tells the call's arguments. *)
Lemma attribute_of_inj (k k' : call_args) (a : customAttribute) :
  attribute_of k = Some a -> attribute_of k' = Some a -> k = k'.
Proof.
  intros H H'.
  destruct (attribute_of_DataType _ _ H) as [Hd Ht].
  destruct (attribute_of_DataType _ _ H') as [Hd' Ht'].
  destruct k as [dt t v], k' as [dt' t' v']; simpl in *.
  subst dt dt' t t'. revert H H'. unfold attribute_of; simpl.
  destruct (DataType a =? DataTypeNumber)%string; destruct v; try discriminate;
    destruct v'; try discriminate; intros H H'; rewrite <- H' in H;
    injection H as H; [apply Itoa_inj in H|]; now subst.
Qed.

Lemma attributes_of_successful (calls : list call_args) :
  attributes_of (successful calls) = attributes_of calls.
Proof.
  induction calls as [|k rest IH]; simpl; [reflexivity|].
  unfold outcome_of. destruct (attribute_of k) as [a|] eqn:E; simpl.
  - rewrite E. now rewrite <- IH.
  - exact IH.
Qed.

(** X1. Whether a call succeeds is decided by the tag and the dynamic type
    of the value alone: under the [Number] tag the value must be an [int],
    under any other tag a [string]. The title and the configuration play no
    part, and the only error the builder ever returns is [ErrMarshal]. *)
Theorem NewCustomAttribute_succeeds_iff
    (c : Config) (dt : dataType) (title : string) (v : value) :
  (snd (NewCustomAttribute c dt title v) = None <-> accepted dt v = true)
  /\ (snd (NewCustomAttribute c dt title v) <> None ->
      NewCustomAttribute c dt title v = (c, Some ErrMarshal))
  /\ (forall (c' : Config) (title' : string),
        snd (NewCustomAttribute c' dt title' v) = snd (NewCustomAttribute c dt title v)).
Proof.
  assert (E : forall c0 t0,
             snd (NewCustomAttribute c0 dt t0 v)
             = if accepted dt v then None else Some ErrMarshal).
  { intros c0 t0. unfold NewCustomAttribute, accepted.
    destruct (dt =? DataTypeNumber)%string; destruct v; reflexivity. }
  split; [|split].
  - rewrite E. destruct (accepted dt v); split; intros H; try reflexivity; discriminate H.
  - intros H. rewrite E in H. revert H. unfold NewCustomAttribute, accepted.
    destruct (dt =? DataTypeNumber)%string; destruct v; simpl; intros H;
      try reflexivity; now contradiction H.
  - intros c' title'. now rewrite !E.
Qed.

Lemma NewCustomAttribute_succeeds_iff_witness :
  NewCustomAttribute Sample.cfg "Binary" "t" VNil = (Sample.cfg, Some ErrMarshal).
Proof.
  apply (proj1 (proj2 (NewCustomAttribute_succeeds_iff Sample.cfg "Binary" "t" VNil))).
  discriminate.
Defined.

(** X2. Nothing is lost in a successful call: two calls that succeed on the
    same configuration and leave it in the same state were made with the
    same tag, the same title and the same value. *)
Theorem NewCustomAttribute_injective
    (c : Config) (dt dt' : dataType) (title title' : string) (v v' : value) :
  snd (NewCustomAttribute c dt title v) = None ->
  NewCustomAttribute c dt' title' v' = NewCustomAttribute c dt title v ->
  dt' = dt /\ title' = title /\ v' = v.
Proof.
  pose proof (NewCustomAttribute_attribute_of c (mkCall dt title v)) as E.
  pose proof (NewCustomAttribute_attribute_of c (mkCall dt' title' v')) as E'.
  simpl arg_dataType in *. simpl arg_title in *. simpl arg_value in *.
  rewrite E', E.
  destruct (attribute_of (mkCall dt title v)) as [a|] eqn:A; [|discriminate].
  destruct (attribute_of (mkCall dt' title' v')) as [a'|] eqn:A'; [|discriminate].
  intros _ H. injection H as H. apply app_inj_tail in H. destruct H as [_ H]. subst a'.
  pose proof (attribute_of_inj _ _ _ A A') as K. injection K as -> -> ->.
  repeat split.
Qed.

Lemma NewCustomAttribute_injective_witness :
  "Number" = DataTypeNumber /\ "n" = "n" /\ VInt 5 = VInt 5.
Proof.
  apply (NewCustomAttribute_injective Sample.cfg DataTypeNumber "Number" "n" "n"
           (VInt 5) (VInt 5)); reflexivity.
Defined.

(** X3. The builder keeps the attributes well encoded: if every attribute
    tagged [Number] holds the decimal text of an integer before a sequence
    of calls, the same is true after it, whatever the calls. *)
Theorem run_calls_well_encoded (calls : list call_args) (c : Config) :
  forallb well_encoded (Attributes c) = true ->
  forallb well_encoded (Attributes (fst (run_calls calls c))) = true.
Proof.
  intros H. rewrite run_calls_attributes_of. simpl.
  rewrite forallb_app, H. simpl.
  clear H. induction calls as [|k rest IH]; simpl; [reflexivity|].
  destruct (attribute_of k) as [a|] eqn:A; [|exact IH].
  simpl. now rewrite (attribute_of_well_encoded _ _ A).
Qed.

Lemma run_calls_well_encoded_witness :
  forallb well_encoded
    (Attributes (fst (run_calls [mkCall DataTypeNumber "a" (VInt (-42));
                                 mkCall DataTypeString "b" (VString "x1");
                                 mkCall DataTypeNumber "c" (VString "7")] Sample.cfg)))
  = true.
Proof.
  apply (run_calls_well_encoded _ Sample.cfg). reflexivity.
Defined.

(** X5. A failed call leaves no mark on what follows: a sequence of calls
    ends in the same configuration as the sequence of its successful calls
    alone, and those all succeed again. *)
Theorem run_calls_successful (calls : list call_args) (c : Config) :
  fst (run_calls (successful calls) c) = fst (run_calls calls c)
  /\ Forall (fun e => e = None) (snd (run_calls (successful calls) c)).
Proof.
  rewrite !run_calls_attributes_of. simpl. split.
  - now rewrite attributes_of_successful.
  - apply Forall_forall. intros e He. apply in_map_iff in He.
    destruct He as [k [Hk Hin]]. apply filter_In in Hin. destruct Hin as [_ Hs].
    rewrite Hk in Hs. destruct e; [discriminate Hs | reflexivity].
Qed.

(** ** Further properties of the retry policy and the bootstrap *)

Lemma newAwsConfigs_cases (w : World) (c : Config) (tr : list Event) :
  (exists err, snd (retrieve w (newAwsConfigs_creds c)) = Some err
     /\ newAwsConfigs c w tr
        = ((aws.zero, Some (Context ErrInvalidCreds err)),
           (tr ++ [EvRetrieve (newAwsConfigs_creds c)])%list))
  \/ (exists cfg err, snd (retrieve w (newAwsConfigs_creds c)) = None
        /\ load w (bootstrap_options c) = (cfg, Some err)
        /\ newAwsConfigs c w tr
           = ((aws.zero, Some err),
              (tr ++ [EvRetrieve (newAwsConfigs_creds c);
                      EvLoadDefaultConfig (bootstrap_options c)])%list))
  \/ (exists cfg, snd (retrieve w (newAwsConfigs_creds c)) = None
        /\ load w (bootstrap_options c) = (cfg, None)
        /\ newAwsConfigs c w tr
           = ((if negb (String.eqb (Hostname c) EmptyString)
               then aws.set_BaseEndpoint cfg (Some (Hostname c)) else cfg, None),
              (tr ++ [EvRetrieve (newAwsConfigs_creds c);
                      EvLoadDefaultConfig (bootstrap_options c)])%list)).
Proof.
  destruct (snd (retrieve w (newAwsConfigs_creds c))) as [err|] eqn:H1.
  - left. exists err. split; [reflexivity | now apply newAwsConfigs_creds_fail].
  - right. destruct (load w (bootstrap_options c)) as [cfg [err|]] eqn:H2.
    + left. exists cfg, err. repeat split. now apply (newAwsConfigs_load_fail w c cfg).
    + right. exists cfg. repeat split. now apply newAwsConfigs_ok.
Qed.

(** X6. The resolved number of attempts is never below one and never below
    the configured count, and resolving it again changes nothing; so the
    retryer the bootstrap asks for is always bounded by a positive number. *)
Theorem MaxRetries_bounds (r : retryer) (c : Config) :
  1 <= MaxRetries r
  /\ retryCount r <= MaxRetries r
  /\ MaxRetries {| retryCount := MaxRetries r |} = MaxRetries r
  /\ exists n : Z,
       config.Retryer (bootstrap_options c) = Some (aws.WithMaxAttempts aws.Standard n)
       /\ 1 <= n.
Proof.
  unfold MaxRetries. simpl retryCount.
  destruct (0 <? retryCount r)%Z eqn:E.
  - apply Z.ltb_lt in E. repeat split; try lia.
    + destruct (0 <? retryCount r)%Z eqn:E'; [reflexivity | apply Z.ltb_ge in E'; lia].
    + eexists. split; [reflexivity|]. unfold MaxRetries. simpl.
      destruct (0 <? RetryCount c)%Z eqn:E'; [apply Z.ltb_lt in E'|]; lia.
  - apply Z.ltb_ge in E. repeat split; try lia.
    eexists. split; [reflexivity|]. unfold MaxRetries. simpl.
    destruct (0 <? RetryCount c)%Z eqn:E'; [apply Z.ltb_lt in E'|]; lia.
Qed.

(** X7. The default bootstrap reads five things of a configuration only:
    key, secret, region, hostname and the resolved retry count. Two
    configurations that agree on them make the same calls and get the same
    result; in particular every non-positive [RetryCount] behaves as 10. *)
Theorem newAwsConfigs_reads_only (c c' : Config) :
  same_bootstrap_inputs c c' ->
  forall (w : World) (tr : list Event), newAwsConfigs c w tr = newAwsConfigs c' w tr.
Proof.
  intros (Hk & Hs & Hr & Hh & Hm) w tr.
  unfold newAwsConfigs, newAwsConfigs_options, newAwsConfigs_creds. cbv zeta.
  now rewrite Hk, Hs, Hr, Hh, Hm.
Qed.

Lemma newAwsConfigs_reads_only_witness :
  newAwsConfigs
    {| AwsConfigProvider := Some 3%nat;
       Key := "k"; Secret := "s"; Region := "us-west-1"; Hostname := EmptyString;
       AWSAccountID := "000000000000"; Env := "dev"; TopicPrefix := "p";
       TopicARN := "arn"; QueueURL := "q";
       VisibilityTimeout := 30; RetryCount := -1; WorkerPool := 4;
       ExtensionLimit := Some 0;
       Attributes := [mkCustomAttribute "a" "Number" "1"]; Logger := Some 1%nat |}
    Sample.world []
  = newAwsConfigs
      {| AwsConfigProvider := None;
         Key := "k"; Secret := "s"; Region := "us-west-1"; Hostname := EmptyString;
         AWSAccountID := EmptyString; Env := EmptyString; TopicPrefix := EmptyString;
         TopicARN := EmptyString; QueueURL := EmptyString;
         VisibilityTimeout := 0; RetryCount := 10; WorkerPool := 0;
         ExtensionLimit := None; Attributes := []; Logger := None |}
      Sample.world [].
Proof.
  apply newAwsConfigs_reads_only. repeat split.
Defined.

(** X8. Adding custom attributes does not change the bootstrap: after any
    sequence of builder calls the default bootstrap makes the same calls
    and returns the same result as before them. *)
Theorem newAwsConfigs_after_run_calls
    (calls : list call_args) (c : Config) (w : World) (tr : list Event) :
  newAwsConfigs (fst (run_calls calls c)) w tr = newAwsConfigs c w tr.
Proof.
  rewrite run_calls_attributes_of. reflexivity.
Qed.

(** X9. The calls the default bootstrap makes to its collaborators: always
    one retrieval of the credentials built from key and secret, first; then
    one load, exactly when the retrieval gave no error, with the options
    carrying the very credentials that were retrieved; nothing else. What
    was in the trace before is kept. *)
Theorem newAwsConfigs_events (w : World) (c : Config) (tr : list Event) :
  snd (newAwsConfigs c w tr) = (tr ++ events (newAwsConfigs c) w)%list
  /\ events (newAwsConfigs c) w
     = (EvRetrieve (newAwsConfigs_creds c)
        :: match snd (retrieve w (newAwsConfigs_creds c)) with
           | Some _ => []
           | None => [EvLoadDefaultConfig (bootstrap_options c)]
           end)%list
  /\ config.Credentials (bootstrap_options c) = Some (newAwsConfigs_creds c).
Proof.
  unfold events. split; [|split; [|reflexivity]].
  - destruct (newAwsConfigs_cases w c tr) as [(e & H1 & H) | [(g & e & H1 & H2 & H) | (g & H1 & H2 & H)]];
      destruct (newAwsConfigs_cases w c []) as [(e' & H1' & H') | [(g' & e' & H1' & H2' & H') | (g' & H1' & H2' & H')]];
      rewrite H, H'; try reflexivity; congruence.
  - destruct (newAwsConfigs_cases w c []) as [(e & H1 & H) | [(g & e & H1 & H2 & H) | (g & H1 & H2 & H)]];
      rewrite H, H1; reflexivity.
Qed.

(** X10. What the default bootstrap returns: no error exactly when both the
    retrieval and the load gave none; with an error, always the zero
    configuration; and the error is either an [InvalidCredentials] carrying
    the retrieval's error or the loader's own. *)
Theorem newAwsConfigs_outcome (w : World) (c : Config) (tr : list Event) :
  (snd (fst (newAwsConfigs c w tr)) = None
   <-> snd (retrieve w (newAwsConfigs_creds c)) = None
       /\ snd (load w (bootstrap_options c)) = None)
  /\ (forall e : error, snd (fst (newAwsConfigs c w tr)) = Some e ->
        fst (fst (newAwsConfigs c w tr)) = aws.zero
        /\ ((kind_of e = Some InvalidCredentials
             /\ cause e = snd (retrieve w (newAwsConfigs_creds c)))
            \/ (snd (retrieve w (newAwsConfigs_creds c)) = None
                /\ snd (load w (bootstrap_options c)) = Some e))).
Proof.
  destruct (newAwsConfigs_cases w c tr)
    as [(e0 & H1 & H) | [(g & e0 & H1 & H2 & H) | (g & H1 & H2 & H)]];
    rewrite H; simpl; rewrite H1; try rewrite H2; simpl.
  - split.
    + split; [discriminate | intros [K _]; discriminate K].
    + intros e K. injection K as <-. split; [reflexivity|]. left. split; reflexivity.
  - split.
    + split; [discriminate | intros [_ K]; discriminate K].
    + intros e K. injection K as <-. split; [reflexivity|]. right. split; reflexivity.
  - split.
    + split; [intros _; split; reflexivity | reflexivity].
    + intros e K. discriminate K.
Qed.

(** X11. The override of the example never reads the configuration it is
    given: whatever the argument, it retrieves the credentials written in
    it and, if that gives no error, loads the configuration for
    ["us-west-1"] with no retryer and no log mode asked for; an error comes
    with the zero configuration, and on success the base endpoint is
    ["http://localhost:4150"]. *)
Theorem example_provider_outcome (w : World) (c c' : Config) (tr : list Event) :
  example.provider c' w tr = example.provider c w tr
  /\ config.Region example.options = "us-west-1"
  /\ config.Retryer example.options = None
  /\ config.ClientLogMode example.options = None
  /\ snd (example.provider c w tr)
     = (tr ++ EvRetrieve example.provider_creds
           :: match snd (retrieve w example.provider_creds) with
              | Some _ => []
              | None => [EvLoadDefaultConfig example.options]
              end)%list
  /\ (snd (fst (example.provider c w tr)) <> None ->
      fst (fst (example.provider c w tr)) = aws.zero)
  /\ (snd (fst (example.provider c w tr)) = None ->
      aws.BaseEndpoint (fst (fst (example.provider c w tr)))
      = Some "http://localhost:4150").
Proof.
  split; [reflexivity|]. repeat (split; [reflexivity|]).
  unfold example.provider, Retrieve, LoadDefaultConfig, bind, emit, ask, ret.
  fold example.options.
  destruct (snd (retrieve w example.provider_creds)) as [e|]; simpl.
  - split; [reflexivity|]. split; [reflexivity | discriminate].
  - destruct (load w example.options) as [cfg [e|]]; simpl; rewrite <- app_assoc.
    + split; [reflexivity|]. split; [reflexivity | discriminate].
    + split; [reflexivity|]. split; [|reflexivity]. intros K. now contradiction K.
Qed.

Lemma example_provider_outcome_witness :
  aws.BaseEndpoint (fst (fst (example.provider Sample.cfg Sample.world [])))
  = Some "http://localhost:4150".
Proof.
  apply (proj2 (proj2 (proj2 (proj2 (proj2 (proj2
           (example_provider_outcome Sample.world Sample.cfg Sample.cfg []))))))).
  reflexivity.
Defined.
